(** * The orders API: request handling, tracing and store access

    A shallow embedding of [main.go] and [db/redis.go].  The program is
    effectful throughout (tracing spans, calls to the key-value store,
    writes to the HTTP response), so every operation runs in a small monad
    that allocates span identifiers and logs, in program order, each effect
    the operation performs.  The redis server, the HTTP listener and the
    trace pipeline are collaborators outside the repository: what they
    answer is a parameter of the development ([Env]). *)

From stdpp Require Import base decidable option list strings gmap.
From Stdlib Require Import ZArith Lia Ascii.

Open Scope Z_scope.
Open Scope string_scope.
Open Scope list_scope.

(** ** Go errors *)

Module errors.

(** The error values the program builds or receives.  [RedisError] is
    go-redis' [proto.RedisError], a string type, hence compared by value;
    [errorString] is what [errors.New] returns (and stands for any other
    leaf error); [wrapError] is [fmt.Errorf] with one [%w] verb;
    [joinError] is what [errors.Join] returns. *)
#[warnings="-register-all"]
Inductive error : Type :=
| RedisError (s : string)
| errorString (s : string)
| wrapError (msg : string) (err : error)
| joinError (errs : list error).

(** [err.Error()] *)
Fixpoint Error (e : error) : string :=
  match e with
  | RedisError s => s
  | errorString s => s
  | wrapError msg _ => msg
  | joinError errs =>
      (fix lines (l : list error) : string :=
         match l with
         | [] => ""
         | x :: r =>
             match r with
             | [] => Error x
             | _ :: _ => Error x +:+ String "010"%char (lines r)
             end
         end) errs
  end.

(** [errors.New] *)
Definition New (text : string) : error := errorString text.

(** [fmt.Errorf(prefix + "%w", err)] *)
Definition Errorf_w (prefix : string) (err : error) : error :=
  wrapError (prefix +:+ Error err) err.

(** [errors.Join]: nil arguments are discarded, and the result is nil
    when nothing is left. *)
Definition Join (errs : list (option error)) : option error :=
  match omap id errs with
  | [] => None
  | l => Some (joinError l)
  end.

(** The loop of [errors.Is] for a target of type [proto.RedisError]: the
    chain of [err] is walked through [Unwrap], every element being compared
    with [==]. *)
Fixpoint chain_is (err : error) (target : string) : bool :=
  match err with
  | RedisError s => bool_decide (s = target)
  | errorString _ => false
  | wrapError _ inner => chain_is inner target
  | joinError errs =>
      (fix any (l : list error) : bool :=
         match l with
         | [] => false
         | x :: r => chain_is x target || any r
         end) errs
  end.

(** [errors.Is(err, target)]; a nil [err] is no target. *)
Definition Is (err : option error) (target : string) : bool :=
  match err with
  | None => false
  | Some e => chain_is e target
  end.

End errors.

Abbreviation error := errors.error.

(** ** Collaborators *)

Module redis.

(** A [*redis.Client] that is not nil: the options it was built from. *)
Record Client : Type := { Addr : string }.

(** [redis.Nil], the reply for an absent key. *)
Definition Nil : string := "redis: nil".

End redis.

Module http.

(** A [*http.Server] that is not nil. *)
Record Server : Type := { Addr : string }.

Definition StatusOK : Z := 200.
Definition StatusBadRequest : Z := 400.
Definition StatusNotFound : Z := 404.
Definition StatusInternalServerError : Z := 500.

End http.

(** What the outside world answers.  [redis_ping addr] is the error of
    [Ping(ctx).Result()] on a client for [addr]; [redis_get addr key] is the
    pair [Get(ctx, key).Result()] returns; [redis_close addr] is the error of
    [Close()]; the last three are the errors of [http.Server.Close],
    [http.Server.Shutdown] and [TracerProvider.Shutdown]. *)
Record Env : Type := {
  redis_ping : string -> option error;
  redis_get : string -> string -> string * option error;
  redis_close : string -> option error;
  http_close : string -> option error;
  http_shutdown : string -> option error;
  tp_shutdown : option error
}.

(** ** Tracing and the effect log *)

Definition SpanId := nat.

(** [codes.Code] *)
Inductive Code : Type := codes_Unset | codes_Error | codes_Ok.

(** One entry per effect, in the order the program performs them. *)
Inductive Event : Type :=
| EvSpanStart (tracer : string) (sp : SpanId) (parent : option SpanId)
    (name : string) (attrs : list (string * string))
| EvSetAttributes (sp : SpanId) (attrs : list (string * string))
| EvRecordError (sp : SpanId) (err : error)
| EvSetStatus (sp : SpanId) (code : Code) (description : string)
| EvSpanEnd (sp : SpanId)
| EvRedisPing (addr : string)
| EvRedisGet (addr key : string)
| EvRedisClose (addr : string)
| EvHTTPClose (addr : string)
| EvHTTPShutdown (addr : string)
| EvTracerProviderShutdown
| EvAbortWithError (code : Z) (err : error)
| EvJSON (code : Z) (obj : gmap string string).

(** An operation starts from the next free span identifier and yields its
    result, the effects it performed and the next free identifier. *)
Definition M (A : Type) : Type := nat -> A * list Event * nat.

Definition ret {A} (a : A) : M A := fun n => (a, [], n).

Definition bind {A B} (m : M A) (k : A -> M B) : M B :=
  fun n =>
    let '(a, l1, n1) := m n in
    let '(b, l2, n2) := k a n1 in
    (b, l1 ++ l2, n2).

#[global] Instance M_ret : MRet M := @ret.
#[global] Instance M_bind : MBind M := fun A B k m => bind m k.

Definition emit (e : Event) : M unit := fun n => (tt, [e], n).

(** The result and the effects of a run. *)
Definition value {A} (r : A * list Event * nat) : A := r.1.1.
Definition effects {A} (r : A * list Event * nat) : list Event := r.1.2.

Module context.

(** A [context.Context], as far as tracing reads it: the span it carries. *)
Record Context : Type := { span : option SpanId }.

Definition Background : Context := {| span := None |}.

End context.

(** [tracer.Start(ctx, name, WithAttributes(attrs...))]: a new span whose
    parent is the span of [ctx], and a context that carries the new span. *)
Definition Start (tracer : string) (ctx : context.Context) (name : string)
    (attrs : list (string * string)) : M (context.Context * SpanId) :=
  fun n =>
    (({| context.span := Some n |}, n),
     [EvSpanStart tracer n (context.span ctx) name attrs], S n).

Definition SetAttributes (span : SpanId) (attrs : list (string * string)) : M unit :=
  emit (EvSetAttributes span attrs).

Definition RecordError (span : SpanId) (err : error) : M unit :=
  emit (EvRecordError span err).

Definition SetStatus (span : SpanId) (code : Code) (description : string) : M unit :=
  emit (EvSetStatus span code description).

Definition End (span : SpanId) : M unit :=
  emit (EvSpanEnd span).

(** [defer span.End()]: the call runs when the function returns, whichever
    return statement is taken. *)
Definition defer_End {A} (span : SpanId) (body : M A) : M A :=
  a ← body; End span;; ret a.

(** ** Package db *)

Module db.

Record Client : Type := {
  redisClient : redis.Client;
  tracer : string
}.

Section WithEnv.
Variable E : Env.

(** [NewClient] creates a new redis client and verifies connectivity
    using PING. *)
Definition NewClient (ctx : context.Context) (addr : string)
    : M (option Client * option error) :=
  let c := {| redis.Addr := addr |} in
  emit (EvRedisPing (redis.Addr c));;
  match redis_ping E (redis.Addr c) with
  | Some err => ret (None, Some (errors.Errorf_w "ping: " err))
  | None => ret (Some {| redisClient := c; tracer := "redis" |}, None)
  end.

(** [Get] returns the order with the given ID. *)
Definition Get (c : Client) (ctx : context.Context) (id : string)
    : M (string * option error) :=
  '(ctx, span) ← Start (tracer c) ctx "get" [("id", id)];
  defer_End span
    (emit (EvRedisGet (redis.Addr (redisClient c)) id);;
     ret (redis_get E (redis.Addr (redisClient c)) id)).

(** [Close] calls [redisClient.Close()]; the error that call returns is not
    bound to anything, and [Close] itself returns nothing. *)
Definition Close (c : Client) : M unit :=
  emit (EvRedisClose (redis.Addr (redisClient c)));;
  let _ := redis_close E (redis.Addr (redisClient c)) in
  ret tt.

End WithEnv.

End db.

(** ** Strings on the wire *)

Module utf8.

(** The value of a byte. *)
Definition code (b : ascii) : Z := Z.of_N (N_of_ascii b).

(** Whether [s] starts with a byte between [lo] and [hi]. *)
Definition starts_within (lo hi : Z) (s : string) : bool :=
  match s with
  | String b _ => (lo <=? code b)%Z && (code b <=? hi)%Z
  | EmptyString => false
  end.

Definition behead (s : string) : string :=
  match s with
  | String _ r => r
  | EmptyString => EmptyString
  end.

(** The size [utf8.DecodeRuneInString] reports for the string that starts
    with the byte [b0] and goes on with [rest], when it decodes a rune; [0]
    when it reports [RuneError] with size 1 (a byte that starts no rune, a
    sequence cut short, an overlong form, a surrogate, a value above
    U+10FFFF). *)
Definition rune_size (b0 : ascii) (rest : string) : nat :=
  let c := code b0 in
  if (c <? 128)%Z then 1%nat
  else if (c <? 194)%Z then 0%nat
  else if (c <? 224)%Z then
    if starts_within 128 191 rest then 2%nat else 0%nat
  else if (c <? 240)%Z then
    let lo := if (c =? 224)%Z then 160 else 128 in
    let hi := if (c =? 237)%Z then 159 else 191 in
    if starts_within lo hi rest && starts_within 128 191 (behead rest)
    then 3%nat else 0%nat
  else if (c <? 245)%Z then
    let lo := if (c =? 240)%Z then 144 else 128 in
    let hi := if (c =? 244)%Z then 143 else 191 in
    if starts_within lo hi rest && starts_within 128 191 (behead rest)
       && starts_within 128 191 (behead (behead rest))
    then 4%nat else 0%nat
  else 0%nat.

(** [valid_from pending s]: [s] holds runes only, its first [pending] bytes
    being the rest of a rune already checked. *)
Fixpoint valid_from (pending : nat) (s : string) : bool :=
  match s with
  | EmptyString => true
  | String b r =>
      match pending with
      | S p => valid_from p r
      | O =>
          match rune_size b r with
          | O => false
          | S p => valid_from p r
          end
      end
  end.

(** [utf8.ValidString] *)
Definition ValidString (s : string) : bool := valid_from 0 s.

(** U+FFFD, the replacement rune, in UTF-8. *)
Definition RuneError : string :=
  String "239"%char (String "191"%char (String "189"%char EmptyString)).

End utf8.

Module json.

(** The string a reader of the JSON text finds where [encoding/json] wrote
    [s]: runes go through (their escapes are undone by the reader), and each
    byte at which no rune decodes is replaced by U+FFFD. *)
Fixpoint coerce_from (pending : nat) (s : string) : string :=
  match s with
  | EmptyString => EmptyString
  | String b r =>
      match pending with
      | S p => String b (coerce_from p r)
      | O =>
          match utf8.rune_size b r with
          | O => utf8.RuneError +:+ coerce_from 0 r
          | S p => String b (coerce_from p r)
          end
      end
  end.

Definition coerce (s : string) : string := coerce_from 0 s.

(** The object a reader finds in the JSON text written for [obj]: keys and
    values are strings on the wire.  (Two keys that come out equal are both
    written; which one a reader keeps is its own matter, the model keeps
    one.) *)
Definition document (obj : gmap string string) : gmap string string :=
  list_to_map ((fun kv => (coerce kv.1, coerce kv.2)) <$> map_to_list obj).

End json.

Arguments json.document : simpl never.

(** ** gin *)

Module gin.

(** A [*gin.Context]: the path parameters and the context of the request,
    and what has been written to the response so far ([status] and [body]
    are [None] until something is written). *)
Record Context : Type := {
  Params : list (string * string);
  Request_Context : context.Context;
  status : option Z;
  body : option (gmap string string);
  Errors : list error;
  aborted : bool
}.

(** [c.Param(key)]: the value of the first parameter named [key], or the
    empty string. *)
Definition Param (c : Context) (key : string) : string :=
  match List.find (fun kv => bool_decide (kv.1 = key)) (Params c) with
  | Some kv => kv.2
  | None => ""
  end.

(** The context after [c.AbortWithError(code, err)] on a response whose
    header is not written yet, which is how the router hands a context to
    the handler: the status is written with no body, the request is aborted
    and [err] is pushed to [c.Errors].  (On a response already written gin
    keeps the status first written; such a context is outside this
    model.) *)
Definition abort (code : Z) (err : error) (c : Context) : Context :=
  {| Params := Params c; Request_Context := Request_Context c;
     status := Some code; body := body c;
     Errors := Errors c ++ [err]; aborted := true |}.

Definition AbortWithError (code : Z) (err : error) (c : Context) : M Context :=
  emit (EvAbortWithError code err);;
  ret (abort code err c).

(** The context after [c.JSON(code, obj)] on a response whose header is not
    written yet: the status is written and the body is the JSON text
    [encoding/json] makes of [obj]; [body] holds the object a reader finds
    in that text.  (On a response already written gin keeps the status first
    written and appends to the body; such a context is outside this
    model.) *)
Definition render (code : Z) (obj : gmap string string) (c : Context) : Context :=
  {| Params := Params c; Request_Context := Request_Context c;
     status := Some code; body := Some (json.document obj);
     Errors := Errors c; aborted := aborted c |}.

Definition JSON (code : Z) (obj : gmap string string) (c : Context) : M Context :=
  emit (EvJSON code obj);;
  ret (render code obj c).

(** A request as the router hands it to a handler: nothing written yet. *)
Definition request (params : list (string * string)) (ctx : context.Context) : Context :=
  {| Params := params; Request_Context := ctx; status := None; body := None;
     Errors := []; aborted := false |}.

End gin.

(** ** Package main *)

(** What a call yields in Go: it returns, or it panics on a nil pointer. *)
Inductive Outcome (A : Type) : Type :=
| Returned (a : A)
| NilDereference.
Arguments Returned {A} a.
Arguments NilDereference {A}.

Definition tracer : string := "ordersAPI".

Record server : Type := {
  httpServer : option http.Server;
  db : option redis.Client
}.

Section WithEnv.
Variable E : Env.

(** [newServer]: the struct literal it returns sets [httpServer] only. *)
Definition newServer (serverAddr redisAddr : string)
    : M (option server * option error) :=
  let httpServer := {| http.Addr := serverAddr |} in
  let c := {| redis.Addr := redisAddr |} in
  emit (EvRedisPing (redis.Addr c));;
  match redis_ping E (redis.Addr c) with
  | Some err => ret (None, Some (errors.Errorf_w "ping redis: " err))
  | None => ret (Some {| httpServer := Some httpServer; db := None |}, None)
  end.

(** [s.httpServer.Close()] *)
Definition httpServer_Close (s : server) : M (Outcome (option error)) :=
  match httpServer s with
  | None => ret NilDereference
  | Some h =>
      emit (EvHTTPClose (http.Addr h));;
      ret (Returned (http_close E (http.Addr h)))
  end.

(** [stop].  [redis.Client] gets [Close] from a pointer it embeds, so the
    call on a nil [s.db] dereferences it. *)
Definition stop (s : server) : M (Outcome (option error)) :=
  match db s with
  | None => ret NilDereference
  | Some d =>
      emit (EvRedisClose (redis.Addr d));;
      match redis_close E (redis.Addr d) with
      | Some err =>
          let e1 := errors.Errorf_w "close redis: " err in
          r ← httpServer_Close s;
          match r with
          | Returned e2 => ret (Returned (errors.Join [Some e1; e2]))
          | NilDereference => ret NilDereference
          end
      | None => httpServer_Close s
      end
  end.

(** Record an error on the span and abort the request with the given status
    code and error. *)
Definition handleErrorResponse (c : gin.Context) (span : SpanId)
    (statusCode : Z) (err : error) : M gin.Context :=
  RecordError span err;;
  SetStatus span codes_Error (errors.Error err);;
  gin.AbortWithError statusCode err c.

(** [getOrder].  The first [if] of the lookup's classification needs
    [err != nil]: it is the [Some] branch of the match, and both of its
    ways out fall through to the second [if]. *)
Definition getOrder (c : gin.Context) (rc : db.Client) : M gin.Context :=
  '(ctx, span) ← Start tracer (gin.Request_Context c) "/order/:id" [];
  defer_End span
    (let id := gin.Param c "id" in
     if decide (id = "") then
       let err := errors.New "id is empty" in
       RecordError span err;;
       SetStatus span codes_Error (errors.Error err);;
       gin.AbortWithError http.StatusBadRequest err c
     else
       SetAttributes span [("order.id", id)];;
       '(order, err) ← db.Get E rc ctx id;
       let classify :=
         if bool_decide (order = "") || errors.Is err redis.Nil then
           let err := errors.New "order not found" in
           handleErrorResponse c span http.StatusNotFound err
         else
           gin.JSON http.StatusOK {[ "order" := order ]} c in
       match err with
       | Some e =>
           if negb (errors.Is err redis.Nil) then
             handleErrorResponse c span http.StatusInternalServerError e
           else classify
       | None => classify
       end).

(** The end of [main], from the moment the signal context is done, as the
    main goroutine runs it when nothing cuts it short: [s.Shutdown], then the
    deferred calls, last deferred first.  Every error these calls return is
    unbound.  The listener goroutine, whose [log.Fatal] can end the process
    in the middle of this, is not part of it: see [main_end]. *)
Definition main_shutdown (c : db.Client) (s : http.Server) : M unit :=
  emit (EvHTTPShutdown (http.Addr s));;
  let _ := http_shutdown E (http.Addr s) in
  db.Close E c;;
  emit EvTracerProviderShutdown;;
  let _ := tp_shutdown E in
  ret tt.

End WithEnv.

(** ** Reading an effect log *)

(** The spans a log starts, in order. *)
Definition started (l : list Event) : list SpanId :=
  omap (fun e => match e with EvSpanStart _ sp _ _ _ => Some sp | _ => None end) l.

(** The spans a log ends, in order. *)
Definition ended (l : list Event) : list SpanId :=
  omap (fun e => match e with EvSpanEnd sp => Some sp | _ => None end) l.

(** The parent the log gives the span [sp] when it starts it: [None] when
    the log does not start [sp], [Some None] when [sp] starts as a root. *)
Fixpoint parent_of (sp : SpanId) (l : list Event) : option (option SpanId) :=
  match l with
  | [] => None
  | EvSpanStart _ sp' parent _ _ :: r =>
      if Nat.eqb sp' sp then Some parent else parent_of sp r
  | _ :: r => parent_of sp r
  end.

(** The errors a log records on the span [sp], in order. *)
Definition recorded (sp : SpanId) (l : list Event) : list error :=
  omap (fun e =>
          match e with
          | EvRecordError sp' err => if Nat.eqb sp' sp then Some err else None
          | _ => None
          end) l.

(** The keys a log asks the store for, in order. *)
Definition store_calls (l : list Event) : list string :=
  omap (fun e => match e with EvRedisGet _ key => Some key | _ => None end) l.

(** The pings a log sends, in order. *)
Definition pings (l : list Event) : list string :=
  omap (fun e => match e with EvRedisPing addr => Some addr | _ => None end) l.

(** The span an effect is on, if it is one on a span that must be open. *)
Definition on_span (e : Event) : option SpanId :=
  match e with
  | EvSetAttributes sp _ | EvRecordError sp _ | EvSetStatus sp _ _ => Some sp
  | _ => None
  end.

(** [scoped open l]: read from a moment when the spans [open] are running
    (innermost first), the log [l] ends only the innermost running span,
    touches only running spans, and leaves none running. *)
Fixpoint scoped (open : list SpanId) (l : list Event) : bool :=
  match l with
  | [] => match open with [] => true | _ :: _ => false end
  | EvSpanStart _ sp _ _ _ :: r => scoped (sp :: open) r
  | EvSpanEnd sp :: r =>
      match open with
      | top :: rest => Nat.eqb sp top && scoped rest r
      | [] => false
      end
  | e :: r =>
      match on_span e with
      | Some sp => existsb (Nat.eqb sp) open && scoped open r
      | None => scoped open r
      end
  end.

(** ** The handler's decision table *)

(** The four ways out of [getOrder]. *)
Inductive Verdict : Type :=
| BadRequest
| BackendError (e : error)
| NotFound
| Found (order : string).

Definition store_addr (rc : db.Client) : string := redis.Addr (db.redisClient rc).

Definition verdict (E : Env) (c : gin.Context) (rc : db.Client) : Verdict :=
  if decide (gin.Param c "id" = "") then BadRequest
  else
    match redis_get E (store_addr rc) (gin.Param c "id") with
    | (_, Some e) => if errors.chain_is e redis.Nil then NotFound else BackendError e
    | (order, None) => if decide (order = "") then NotFound else Found order
    end.

(** What each way out writes to the response. *)
Definition respond (c : gin.Context) (v : Verdict) : gin.Context :=
  match v with
  | BadRequest => gin.abort 400 (errors.New "id is empty") c
  | BackendError e => gin.abort 500 e c
  | NotFound => gin.abort 404 (errors.New "order not found") c
  | Found order => gin.render 200 {[ "order" := order ]} c
  end.

(** The effects of recording [err] on [sp] and aborting with [code]. *)
Definition failure_events (sp : SpanId) (code : Z) (err : error) : list Event :=
  [EvRecordError sp err; EvSetStatus sp codes_Error (errors.Error err);
   EvAbortWithError code err].

(** The effects of the lookup, from the attribute to the end of the store
    span. *)
Definition lookup_events (c : gin.Context) (rc : db.Client) (n : nat) : list Event :=
  [EvSetAttributes n [("order.id", gin.Param c "id")];
   EvSpanStart (db.tracer rc) (S n) (Some n) "get" [("id", gin.Param c "id")];
   EvRedisGet (store_addr rc) (gin.Param c "id");
   EvSpanEnd (S n)].

Definition request_start (c : gin.Context) (n : nat) : Event :=
  EvSpanStart tracer n (context.span (gin.Request_Context c)) "/order/:id" [].

Definition events_of (c : gin.Context) (rc : db.Client) (n : nat) (v : Verdict)
    : list Event :=
  match v with
  | BadRequest =>
      request_start c n :: failure_events n 400 (errors.New "id is empty")
        ++ [EvSpanEnd n]
  | BackendError e =>
      request_start c n :: lookup_events c rc n ++ failure_events n 500 e
        ++ [EvSpanEnd n]
  | NotFound =>
      request_start c n :: lookup_events c rc n
        ++ failure_events n 404 (errors.New "order not found") ++ [EvSpanEnd n]
  | Found order =>
      request_start c n :: lookup_events c rc n
        ++ [EvJSON 200 {[ "order" := order ]}; EvSpanEnd n]
  end.

Definition next_of (n : nat) (v : Verdict) : nat :=
  match v with BadRequest => S n | _ => S (S n) end.

(** The status and the error a verdict aborts with. *)
Definition failure_of (v : Verdict) : option (Z * error) :=
  match v with
  | BadRequest => Some (400, errors.New "id is empty")
  | BackendError e => Some (500, e)
  | NotFound => Some (404, errors.New "order not found")
  | Found _ => None
  end.

(** The errors an optional error stands for. *)
Definition errs_of (err : option error) : list error :=
  match err with Some e => [e] | None => [] end.

(** ** Scenarios *)

(** A store at which key 42 holds an order, key 7 holds the empty value, key
    [boom] cannot be read, and every other key is absent. *)
Definition scenario_get (addr key : string) : string * option error :=
  if decide (key = "42") then ("widget-order", None)
  else if decide (key = "7") then ("", None)
  else if decide (key = "boom") then ("", Some (errors.errorString "i/o timeout"))
  else ("", Some (errors.RedisError redis.Nil)).

(** The world of the scenarios: the store answers a ping, and closing its
    connection fails. *)
Definition scenario_env : Env :=
  {| redis_ping := fun _ => None;
     redis_get := scenario_get;
     redis_close := fun _ => Some (errors.errorString "use of closed network connection");
     http_close := fun _ => Some (errors.errorString "close tcp: broken pipe");
     http_shutdown := fun _ => None;
     tp_shutdown := None |}.

Definition scenario_client : db.Client :=
  {| db.redisClient := {| redis.Addr := "localhost:6379" |}; db.tracer := "redis" |}.

(** [GET /v1/orders/<id>], with no span in the request's context. *)
Definition scenario_request (id : string) : gin.Context :=
  gin.request [("id", id)] context.Background.

(** The world of the scenarios, but closing the store connection succeeds. *)
Definition scenario_env_clean_close : Env :=
  {| redis_ping := redis_ping scenario_env;
     redis_get := redis_get scenario_env;
     redis_close := fun _ => None;
     http_close := http_close scenario_env;
     http_shutdown := http_shutdown scenario_env;
     tp_shutdown := tp_shutdown scenario_env |}.

(** ** More readings of an effect log *)

(** The statuses a log writes to the response, in order. *)
Definition writes (l : list Event) : list Z :=
  omap (fun e =>
          match e with
          | EvAbortWithError code _ | EvJSON code _ => Some code
          | _ => None
          end) l.

(** The calls a log makes to the store, the listener and the trace
    pipeline, in order. *)
Definition outside_calls (l : list Event) : list Event :=
  omap (fun e =>
          match e with
          | EvRedisPing _ | EvRedisGet _ _ | EvRedisClose _
          | EvHTTPClose _ | EvHTTPShutdown _ | EvTracerProviderShutdown => Some e
          | _ => None
          end) l.

(** The spans on which a log records an error or sets a status. *)
Definition marked (l : list Event) : list SpanId :=
  omap (fun e =>
          match e with
          | EvRecordError sp _ | EvSetStatus sp _ _ => Some sp
          | _ => None
          end) l.

(** ** Startup *)

Module semconv.

(** Package [semconv/v1.7.0]. *)
Definition SchemaURL : string := "https://opentelemetry.io/schemas/1.7.0".
Definition ServiceNameKey : string := "service.name".
Definition HostArchKey : string := "host.arch".
Definition HostNameKey : string := "host.name".

End semconv.

(** What the host answers at startup: [os.Hostname()], [runtime.GOARCH], the
    error of [grpc.DialContext] to a target, and the error of
    [otlptracegrpc.New] over the connection to a target. *)
Record Host : Type := {
  os_Hostname : string * option error;
  runtime_GOARCH : string;
  grpc_DialContext : string -> option error;
  otlptracegrpc_New : string -> option error
}.

(** A [*resource.Resource]. *)
Record Resource : Type := {
  schemaURL : string;
  attributes : list (string * string)
}.

(** A [*trace.TracerProvider]: the collector its batcher exports to, and its
    resource. *)
Record TracerProvider : Type := {
  exporter_target : string;
  resource : Resource
}.

(** [initTraceProvider].  The error of [os.Hostname()] is assigned to the
    blank identifier. *)
Definition initTraceProvider (H : Host) : option TracerProvider * option error :=
  let '(hostname, _) := os_Hostname H in
  let resources :=
    {| schemaURL := semconv.SchemaURL;
       attributes := [(semconv.ServiceNameKey, "ourservice");
                      (semconv.HostArchKey, runtime_GOARCH H);
                      (semconv.HostNameKey, hostname)] |} in
  match grpc_DialContext H "localhost:4317" with
  | Some err => (None, Some err)
  | None =>
      match otlptracegrpc_New H "localhost:4317" with
      | Some err => (None, Some err)
      | None =>
          (Some {| exporter_target := "localhost:4317"; resource := resources |},
           None)
      end
  end.

(** How the start of [main] ends: [log.Fatal(err)] exits the process at
    once (no deferred call runs), or the process goes on to serve with the
    trace provider and the store client it has built. *)
Inductive Startup : Type :=
| Fatal (err : error)
| Serving (traceProvider : option TracerProvider) (c : option db.Client).

(** The start of [main], up to the construction of the store client. *)
Definition main_startup (H : Host) (E : Env) : M Startup :=
  let '(traceProvider, err) := initTraceProvider H in
  match err with
  | Some err => ret (Fatal err)
  | None =>
      '(c, err) ← db.NewClient E context.Background "localhost:6379";
      match err with
      | Some err => ret (Fatal err)
      | None => ret (Serving traceProvider c)
      end
  end.


(** A server that holds both of its pointers. *)
Definition scenario_server : server :=
  {| httpServer := Some {| http.Addr := ":9911" |};
     db := Some {| redis.Addr := "localhost:6379" |} |}.

(** ** The end of [main], with the listener goroutine *)




(** A store whose key [raw] holds the single byte 255, which starts no
    rune. *)
Definition scenario_env_raw_bytes : Env :=
  {| redis_ping := redis_ping scenario_env;
     redis_get := fun _ key =>
                    if decide (key = "raw") then (String "255"%char EmptyString, None)
                    else ("", Some (errors.RedisError redis.Nil));
     redis_close := redis_close scenario_env;
     http_close := http_close scenario_env;
     http_shutdown := http_shutdown scenario_env;
     tp_shutdown := tp_shutdown scenario_env |}.

(** * Properties *)

(** [getOrder] runs its decision table. *)
Lemma getOrder_run (E : Env) (c : gin.Context) (rc : db.Client) (n : nat) :
  getOrder E c rc n =
  (respond c (verdict E c rc), events_of c rc n (verdict E c rc),
   next_of n (verdict E c rc)).
Proof.
  unfold getOrder, verdict, store_addr.
  destruct (decide (gin.Param c "id" = "")) as [Hid | Hid]; [reflexivity |].
  unfold defer_End, db.Get, defer_End, mbind, M_bind, bind, Start, emit; cbn -[singletonM].
  destruct (redis_get E (redis.Addr (db.redisClient rc)) (gin.Param c "id"))
    as [order [e |]]; cbn -[singletonM].
  - destruct (errors.chain_is e redis.Nil); cbn -[singletonM].
    + rewrite orb_true_r. reflexivity.
    + reflexivity.
  - rewrite orb_false_r. destruct (decide (order = "")) as [Ho | Ho].
    + rewrite bool_decide_true by exact Ho. reflexivity.
    + rewrite bool_decide_false by exact Ho. reflexivity.
Qed.

(** The verdict under each row of the table. *)
Lemma verdict_bad_request (E : Env) (c : gin.Context) (rc : db.Client) :
  gin.Param c "id" = "" -> verdict E c rc = BadRequest.
Proof. intros Hid. unfold verdict. rewrite decide_True by exact Hid. reflexivity. Qed.

Lemma verdict_backend_error (E : Env) (c : gin.Context) (rc : db.Client)
    (order : string) (e : error) :
  gin.Param c "id" <> "" ->
  redis_get E (store_addr rc) (gin.Param c "id") = (order, Some e) ->
  errors.Is (Some e) redis.Nil = false ->
  verdict E c rc = BackendError e.
Proof.
  intros Hid Hget His. unfold verdict. rewrite decide_False by exact Hid.
  rewrite Hget. cbn in His. rewrite His. reflexivity.
Qed.

Lemma verdict_not_found (E : Env) (c : gin.Context) (rc : db.Client)
    (order : string) (err : option error) :
  gin.Param c "id" <> "" ->
  redis_get E (store_addr rc) (gin.Param c "id") = (order, err) ->
  errors.Is err redis.Nil = true \/ (err = None /\ order = "") ->
  verdict E c rc = NotFound.
Proof.
  intros Hid Hget Hcase. unfold verdict. rewrite decide_False by exact Hid.
  rewrite Hget. destruct Hcase as [His | [-> ->]].
  - destruct err as [e |]; [| discriminate His]. cbn in His. rewrite His. reflexivity.
  - reflexivity.
Qed.

Lemma verdict_found (E : Env) (c : gin.Context) (rc : db.Client) (order : string) :
  gin.Param c "id" <> "" ->
  redis_get E (store_addr rc) (gin.Param c "id") = (order, None) ->
  order <> "" ->
  verdict E c rc = Found order.
Proof.
  intros Hid Hget Ho. unfold verdict. rewrite decide_False by exact Hid.
  rewrite Hget. rewrite decide_False by exact Ho. reflexivity.
Qed.

(** ** The response of the handler *)

(** C1: for a non-empty id, when the store call reports the not-found error
    or returns no error and an empty value, the handler responds 404; the
    run is the same in both cases (what it yields mentions neither the value
    nor the error). *)
Theorem getOrder_not_found_404 (E : Env) (c : gin.Context) (rc : db.Client)
    (n : nat) (order : string) (err : option error) :
  gin.Param c "id" <> "" ->
  redis_get E (store_addr rc) (gin.Param c "id") = (order, err) ->
  errors.Is err redis.Nil = true \/ (err = None /\ order = "") ->
  gin.status (value (getOrder E c rc n)) = Some http.StatusNotFound /\
  getOrder E c rc n =
    (gin.abort 404 (errors.New "order not found") c,
     request_start c n :: lookup_events c rc n
       ++ failure_events n 404 (errors.New "order not found") ++ [EvSpanEnd n],
     S (S n)).
Proof.
  intros Hid Hget Hcase.
  rewrite getOrder_run, (verdict_not_found E c rc order err Hid Hget Hcase).
  split; reflexivity.
Qed.

Lemma getOrder_not_found_404_witness :
  gin.status (value (getOrder scenario_env (scenario_request "999") scenario_client 0%nat))
    = Some http.StatusNotFound /\
  getOrder scenario_env (scenario_request "999") scenario_client 0%nat =
    (gin.abort 404 (errors.New "order not found") (scenario_request "999"),
     request_start (scenario_request "999") 0%nat
       :: lookup_events (scenario_request "999") scenario_client 0%nat
       ++ failure_events 0%nat 404 (errors.New "order not found") ++ [EvSpanEnd 0%nat],
     2%nat).
Proof.
  apply (getOrder_not_found_404 scenario_env (scenario_request "999")
           scenario_client 0%nat "" (Some (errors.RedisError redis.Nil))).
  - vm_compute. discriminate.
  - vm_compute. reflexivity.
  - left. vm_compute. reflexivity.
Defined.

(** Valid UTF-8 goes through the JSON text unchanged. *)
Lemma coerce_from_valid (s : string) :
  forall pending : nat,
    utf8.valid_from pending s = true -> json.coerce_from pending s = s.
Proof.
  induction s as [| b r IH]; intros pending Hv; [reflexivity |].
  cbn in Hv |- *. destruct pending as [| p].
  - destruct (utf8.rune_size b r) as [| p]; [discriminate Hv |].
    rewrite (IH p Hv). reflexivity.
  - rewrite (IH p Hv). reflexivity.
Qed.

Lemma coerce_valid (s : string) :
  utf8.ValidString s = true -> json.coerce s = s.
Proof. apply coerce_from_valid. Qed.

(** What the JSON text does to strings: runes of one to four bytes go
    through, also U+FFFD itself; a lone lead byte, a sequence cut short, an
    overlong form, a surrogate and a value above U+10FFFF come out as one
    U+FFFD for each of their bytes. *)
Example coerce_samples :
  json.coerce "widget-order" = "widget-order" /\
  json.coerce (String "195"%char (String "169"%char EmptyString))
    = String "195"%char (String "169"%char EmptyString) /\
  json.coerce
    (String "240"%char (String "159"%char (String "152"%char
       (String "128"%char EmptyString))))
    = String "240"%char (String "159"%char (String "152"%char
        (String "128"%char EmptyString))) /\
  json.coerce utf8.RuneError = utf8.RuneError /\
  json.coerce (String "195"%char EmptyString) = utf8.RuneError /\
  json.coerce (String "226"%char (String "130"%char EmptyString))
    = utf8.RuneError +:+ utf8.RuneError /\
  json.coerce (String "192"%char (String "128"%char EmptyString))
    = utf8.RuneError +:+ utf8.RuneError /\
  json.coerce (String "237"%char (String "160"%char (String "128"%char EmptyString)))
    = utf8.RuneError +:+ utf8.RuneError +:+ utf8.RuneError /\
  json.coerce
    (String "244"%char (String "144"%char (String "128"%char
       (String "128"%char EmptyString))))
    = utf8.RuneError +:+ utf8.RuneError +:+ utf8.RuneError +:+ utf8.RuneError /\
  json.coerce (String "a"%char (String "255"%char (String "b"%char EmptyString)))
    = String "a"%char (utf8.RuneError +:+ "b").
Proof. repeat split; vm_compute; reflexivity. Qed.

(** The JSON text of an object with one field. *)
Lemma document_singleton (k v : string) :
  json.document {[ k := v ]} = {[ json.coerce k := json.coerce v ]}.
Proof.
  unfold json.document. rewrite map_to_list_singleton. cbn.
  apply insert_empty.
Qed.

(** The body of the success response, for every value. *)
Lemma getOrder_found_body (E : Env) (c : gin.Context) (rc : db.Client)
    (n : nat) (order : string) :
  gin.Param c "id" <> "" ->
  redis_get E (store_addr rc) (gin.Param c "id") = (order, None) ->
  order <> "" ->
  gin.body (value (getOrder E c rc n)) = Some {[ "order" := json.coerce order ]}.
Proof.
  intros Hid Hget Ho.
  rewrite getOrder_run, (verdict_found E c rc order Hid Hget Ho).
  unfold value, respond, gin.render. cbn [fst gin.body].
  rewrite document_singleton. reflexivity.
Qed.

(** C2, as the code has it: for a non-empty id, when the store call returns
    no error and a non-empty value that is valid UTF-8, the handler responds
    200 with a JSON object whose single field [order] holds that value. *)
Theorem getOrder_found_200 (E : Env) (c : gin.Context) (rc : db.Client)
    (n : nat) (order : string) :
  gin.Param c "id" <> "" ->
  redis_get E (store_addr rc) (gin.Param c "id") = (order, None) ->
  order <> "" ->
  utf8.ValidString order = true ->
  gin.status (value (getOrder E c rc n)) = Some http.StatusOK /\
  exists obj : gmap string string,
    gin.body (value (getOrder E c rc n)) = Some obj /\
    obj !! "order" = Some order /\
    (forall k : string, k <> "order" -> obj !! k = None) /\
    EvJSON http.StatusOK obj ∈ effects (getOrder E c rc n).
Proof.
  intros Hid Hget Ho Hvalid.
  split.
  { rewrite getOrder_run, (verdict_found E c rc order Hid Hget Ho). reflexivity. }
  exists {[ "order" := order ]}. split.
  { rewrite (getOrder_found_body E c rc n order Hid Hget Ho).
    rewrite (coerce_valid order Hvalid). reflexivity. }
  split; [apply lookup_singleton_eq |].
  split.
  - intros k Hk. apply lookup_singleton_ne. congruence.
  - rewrite getOrder_run, (verdict_found E c rc order Hid Hget Ho).
    unfold effects, events_of, lookup_events; cbn -[singletonM].
    do 5 (apply list_elem_of_further). apply list_elem_of_here.
Qed.

Lemma getOrder_found_200_witness :
  gin.status (value (getOrder scenario_env (scenario_request "42") scenario_client 0%nat))
    = Some http.StatusOK /\
  exists obj : gmap string string,
    gin.body (value (getOrder scenario_env (scenario_request "42") scenario_client 0%nat))
      = Some obj /\
    obj !! "order" = Some "widget-order" /\
    (forall k : string, k <> "order" -> obj !! k = None) /\
    EvJSON http.StatusOK obj
      ∈ effects (getOrder scenario_env (scenario_request "42") scenario_client 0%nat).
Proof.
  apply (getOrder_found_200 scenario_env (scenario_request "42") scenario_client 0%nat
           "widget-order").
  - vm_compute. discriminate.
  - vm_compute. reflexivity.
  - discriminate.
  - vm_compute. reflexivity.
Defined.

(** C2, as it is written, fails: the store holds, under the key [raw], the
    single byte 255; the id is not empty, the value is not empty and there is
    no error, the handler responds 200, and yet the field [order] of the
    body does not hold that value: it holds U+FFFD. *)
Lemma getOrder_found_200_invalid_utf8 :
  gin.Param (scenario_request "raw") "id" <> "" /\
  redis_get scenario_env_raw_bytes (store_addr scenario_client)
      (gin.Param (scenario_request "raw") "id")
    = (String "255"%char EmptyString, None) /\
  String "255"%char EmptyString <> "" /\
  gin.status
      (value (getOrder scenario_env_raw_bytes (scenario_request "raw") scenario_client 0%nat))
    = Some http.StatusOK /\
  gin.body
      (value (getOrder scenario_env_raw_bytes (scenario_request "raw") scenario_client 0%nat))
    = Some {[ "order" := utf8.RuneError ]} /\
  ~ (exists obj : gmap string string,
       gin.body
           (value (getOrder scenario_env_raw_bytes (scenario_request "raw")
                     scenario_client 0%nat))
         = Some obj /\
       obj !! "order" = Some (String "255"%char EmptyString)).
Proof.
  assert (gin.body
            (value (getOrder scenario_env_raw_bytes (scenario_request "raw")
                      scenario_client 0%nat))
          = Some {[ "order" := utf8.RuneError ]}) as Hbody.
  { rewrite (getOrder_found_body scenario_env_raw_bytes (scenario_request "raw")
               scenario_client 0%nat (String "255"%char EmptyString)).
    - reflexivity.
    - vm_compute. discriminate.
    - vm_compute. reflexivity.
    - discriminate. }
  split; [vm_compute; discriminate |].
  split; [vm_compute; reflexivity |].
  split; [discriminate |].
  split; [vm_compute; reflexivity |].
  split; [exact Hbody |].
  intros (obj & Hobj & Hlook). rewrite Hbody in Hobj. injection Hobj as <-.
  rewrite lookup_singleton_eq in Hlook. discriminate Hlook.
Qed.

(** C3: when the extracted id is the empty string, the handler responds 400
    and its run holds no call to the store's Get (and starts no span but the
    request span). *)
Theorem getOrder_empty_id_400 (E : Env) (c : gin.Context) (rc : db.Client) (n : nat) :
  gin.Param c "id" = "" ->
  gin.status (value (getOrder E c rc n)) = Some http.StatusBadRequest /\
  store_calls (effects (getOrder E c rc n)) = [] /\
  (forall addr key : string, EvRedisGet addr key ∉ effects (getOrder E c rc n)) /\
  started (effects (getOrder E c rc n)) = [n].
Proof.
  intros Hid. rewrite getOrder_run, (verdict_bad_request E c rc Hid).
  repeat split.
  intros addr key Hin. cbn in Hin. unfold request_start in Hin.
  repeat (apply elem_of_cons in Hin as [Hin | Hin]; [discriminate Hin |]).
  exact (not_elem_of_nil _ Hin).
Qed.

Lemma getOrder_empty_id_400_witness :
  gin.status (value (getOrder scenario_env (scenario_request "") scenario_client 0%nat))
    = Some http.StatusBadRequest /\
  store_calls (effects (getOrder scenario_env (scenario_request "") scenario_client 0%nat))
    = [] /\
  (forall addr key : string,
     EvRedisGet addr key
       ∉ effects (getOrder scenario_env (scenario_request "") scenario_client 0%nat)) /\
  started (effects (getOrder scenario_env (scenario_request "") scenario_client 0%nat))
    = [0%nat].
Proof.
  apply (getOrder_empty_id_400 scenario_env (scenario_request "") scenario_client 0%nat).
  vm_compute. reflexivity.
Defined.

(** C4: for a non-empty id, when the store call returns an error that is not
    the not-found error, the handler responds 500, and that error is the one
    recorded on the request span, with the error status and its message. *)
Theorem getOrder_backend_error_500 (E : Env) (c : gin.Context) (rc : db.Client)
    (n : nat) (order : string) (e : error) :
  gin.Param c "id" <> "" ->
  redis_get E (store_addr rc) (gin.Param c "id") = (order, Some e) ->
  errors.Is (Some e) redis.Nil = false ->
  gin.status (value (getOrder E c rc n)) = Some http.StatusInternalServerError /\
  head (effects (getOrder E c rc n)) = Some (request_start c n) /\
  recorded n (effects (getOrder E c rc n)) = [e] /\
  EvSetStatus n codes_Error (errors.Error e) ∈ effects (getOrder E c rc n) /\
  gin.Errors (value (getOrder E c rc n)) = gin.Errors c ++ [e].
Proof.
  intros Hid Hget His.
  rewrite getOrder_run, (verdict_backend_error E c rc order e Hid Hget His).
  repeat split.
  - cbn. rewrite Nat.eqb_refl. reflexivity.
  - cbn. do 6 (apply list_elem_of_further). apply list_elem_of_here.
Qed.

Lemma getOrder_backend_error_500_witness :
  gin.status (value (getOrder scenario_env (scenario_request "boom") scenario_client 0%nat))
    = Some http.StatusInternalServerError /\
  head (effects (getOrder scenario_env (scenario_request "boom") scenario_client 0%nat))
    = Some (request_start (scenario_request "boom") 0%nat) /\
  recorded 0%nat (effects (getOrder scenario_env (scenario_request "boom") scenario_client 0%nat))
    = [errors.errorString "i/o timeout"] /\
  EvSetStatus 0%nat codes_Error (errors.Error (errors.errorString "i/o timeout"))
    ∈ effects (getOrder scenario_env (scenario_request "boom") scenario_client 0%nat) /\
  gin.Errors (value (getOrder scenario_env (scenario_request "boom") scenario_client 0%nat))
    = gin.Errors (scenario_request "boom") ++ [errors.errorString "i/o timeout"].
Proof.
  apply (getOrder_backend_error_500 scenario_env (scenario_request "boom")
           scenario_client 0%nat "" (errors.errorString "i/o timeout")).
  - vm_compute. discriminate.
  - vm_compute. reflexivity.
  - vm_compute. reflexivity.
Defined.

(** ** Spans *)

Lemma eqb_succ_r (n : nat) : Nat.eqb n (S n) = false.
Proof. apply Nat.eqb_neq. lia. Qed.

(** [Get] starts one span and ends it, last of all. *)
Lemma Get_run (E : Env) (rc : db.Client) (ctx : context.Context) (id : string) (n : nat) :
  db.Get E rc ctx id n =
  (redis_get E (store_addr rc) id,
   [EvSpanStart (db.tracer rc) n (context.span ctx) "get" [("id", id)];
    EvRedisGet (store_addr rc) id; EvSpanEnd n],
   S n).
Proof.
  unfold db.Get, defer_End, mbind, M_bind, bind, Start, emit, store_addr. cbn.
  destruct (redis_get E (redis.Addr (db.redisClient rc)) id). reflexivity.
Qed.

(** C5: on every way out of the handler, and of the store client's Get, the
    span started at entry is ended exactly once, by the last effect of the
    call; a request starts and ends one request span and, unless its id is
    empty, one store-call span, started under the request span and ended
    before it. *)
Theorem spans_end_exactly_once (E : Env) (c : gin.Context) (rc : db.Client)
    (ctx : context.Context) (id : string) (n : nat) :
  (let l := effects (db.Get E rc ctx id n) in
   started l = [n] /\ ended l = [n] /\ last l = Some (EvSpanEnd n) /\
   scoped [] l = true) /\
  (let l := effects (getOrder E c rc n) in
   head l = Some (request_start c n) /\ last l = Some (EvSpanEnd n) /\
   scoped [] l = true /\
   if decide (gin.Param c "id" = "")
   then started l = [n] /\ ended l = [n]
   else started l = [n; S n] /\ ended l = [S n; n] /\
        parent_of (S n) l = Some (Some n)).
Proof.
  split.
  - rewrite Get_run. cbn. rewrite Nat.eqb_refl. repeat split.
  - rewrite getOrder_run. unfold verdict.
    destruct (decide (gin.Param c "id" = "")) as [Hid | Hid].
    + cbn. rewrite !Nat.eqb_refl. repeat split.
    + destruct (redis_get E (store_addr rc) (gin.Param c "id")) as [order [e |]];
        [destruct (errors.chain_is e redis.Nil) | destruct (decide (order = ""))];
        cbn -[singletonM]; rewrite !Nat.eqb_refl, ?eqb_succ_r; repeat split.
Qed.

(** ** Construction of the store client *)

(** C7: for every address, [NewClient] sends one ping to the store at that
    address; it returns an error, and no client, exactly when the ping fails,
    and on success a client that holds the connection it pinged, and no
    error. *)
Theorem NewClient_pings (E : Env) (ctx : context.Context) (addr : string) (n : nat) :
  pings (effects (db.NewClient E ctx addr n)) = [addr] /\
  ((value (db.NewClient E ctx addr n)).2 <> None <-> redis_ping E addr <> None) /\
  ((value (db.NewClient E ctx addr n)).1 = None <-> redis_ping E addr <> None) /\
  match redis_ping E addr with
  | Some err =>
      value (db.NewClient E ctx addr n) = (None, Some (errors.Errorf_w "ping: " err))
  | None =>
      value (db.NewClient E ctx addr n) =
        (Some {| db.redisClient := {| redis.Addr := addr |}; db.tracer := "redis" |},
         None)
  end.
Proof.
  unfold db.NewClient, mbind, M_bind, bind, emit. cbn.
  destruct (redis_ping E addr) as [err |]; cbn.
  - repeat split; intros; congruence.
  - repeat split; intros; congruence.
Qed.

(** ** Determinism *)

(** C8: two requests with the same id, run against the same store, get the
    same status and the same body, whatever spans they run under. *)
Theorem getOrder_deterministic (E : Env) (rc : db.Client) (c1 c2 : gin.Context)
    (n1 n2 : nat) :
  gin.Param c1 "id" = gin.Param c2 "id" ->
  gin.body c1 = gin.body c2 ->
  gin.status (value (getOrder E c1 rc n1)) = gin.status (value (getOrder E c2 rc n2)) /\
  gin.body (value (getOrder E c1 rc n1)) = gin.body (value (getOrder E c2 rc n2)).
Proof.
  intros Hid Hbody. rewrite !getOrder_run.
  assert (verdict E c1 rc = verdict E c2 rc) as ->.
  { unfold verdict. rewrite Hid. reflexivity. }
  destruct (verdict E c2 rc); cbn -[singletonM]; rewrite ?Hbody; split; reflexivity.
Qed.

Lemma getOrder_deterministic_witness :
  gin.status (value (getOrder scenario_env (scenario_request "42") scenario_client 0%nat))
    = gin.status
        (value (getOrder scenario_env
                  (gin.request [("id", "42")] {| context.span := Some 7%nat |})
                  scenario_client 8%nat)) /\
  gin.body (value (getOrder scenario_env (scenario_request "42") scenario_client 0%nat))
    = gin.body
        (value (getOrder scenario_env
                  (gin.request [("id", "42")] {| context.span := Some 7%nat |})
                  scenario_client 8%nat)).
Proof.
  apply (getOrder_deterministic scenario_env scenario_client (scenario_request "42")
           (gin.request [("id", "42")] {| context.span := Some 7%nat |}) 0%nat 8%nat).
  - vm_compute. reflexivity.
  - reflexivity.
Defined.

(** ** Errors on the request span *)

Lemma events_of_failure (c : gin.Context) (rc : db.Client) (n : nat) (v : Verdict)
    (code : Z) (err : error) :
  failure_of v = Some (code, err) ->
  exists pre : list Event,
    events_of c rc n v = pre ++ failure_events n code err ++ [EvSpanEnd n] /\
    recorded n pre = [] /\
    (forall code' err', EvAbortWithError code' err' ∉ pre).
Proof.
  assert (forall code' err', EvAbortWithError code' err' ∉ [request_start c n]) as Hone.
  { intros code' err' Hin. apply elem_of_cons in Hin as [Hin | Hin];
      [discriminate Hin | exact (not_elem_of_nil _ Hin)]. }
  assert (forall code' err',
            EvAbortWithError code' err' ∉ request_start c n :: lookup_events c rc n)
    as Hfive.
  { intros code' err' Hin. unfold lookup_events in Hin.
    repeat (apply elem_of_cons in Hin as [Hin | Hin]; [discriminate Hin |]).
    exact (not_elem_of_nil _ Hin). }
  destruct v; cbn; intros Hf; inversion Hf; subst.
  - exists [request_start c n]. repeat split. exact Hone.
  - exists (request_start c n :: lookup_events c rc n). repeat split. exact Hfive.
  - exists (request_start c n :: lookup_events c rc n). repeat split. exact Hfive.
Qed.

(** C9: a request records at most one error on its span; every status the
    handler aborts with is preceded, on the span, by the record of the same
    error and by the error status with its message; and a request that does not
    end in the success response has recorded exactly the error it aborts
    with. *)
Theorem errors_recorded_before_status (E : Env) (c : gin.Context) (rc : db.Client)
    (n : nat) :
  (length (recorded n (effects (getOrder E c rc n))) <= 1)%nat /\
  (forall (code : Z) (err : error),
     EvAbortWithError code err ∈ effects (getOrder E c rc n) ->
     exists pre post : list Event,
       effects (getOrder E c rc n) =
         pre ++ [EvRecordError n err; EvSetStatus n codes_Error (errors.Error err);
                 EvAbortWithError code err] ++ post /\
       recorded n pre = [] /\ recorded n post = []) /\
  ((gin.status (value (getOrder E c rc n)) = Some http.StatusOK /\
    recorded n (effects (getOrder E c rc n)) = [] /\
    gin.Param c "id" <> "" /\
    (redis_get E (store_addr rc) (gin.Param c "id")).2 = None)
   \/
   (exists (code : Z) (err : error),
      code <> http.StatusOK /\
      gin.status (value (getOrder E c rc n)) = Some code /\
      recorded n (effects (getOrder E c rc n)) = [err] /\
      EvAbortWithError code err ∈ effects (getOrder E c rc n))).
Proof.
  rewrite getOrder_run. unfold effects, value. cbn [fst snd].
  assert (forall code err,
            failure_of (verdict E c rc) = Some (code, err) ->
            recorded n (events_of c rc n (verdict E c rc)) = [err]) as Hrec.
  { intros code err Hf.
    destruct (events_of_failure c rc n _ code err Hf) as (pre & -> & Hpre & _).
    unfold recorded in *. rewrite omap_app, Hpre. cbn. rewrite Nat.eqb_refl.
    reflexivity. }
  split; [| split].
  - destruct (failure_of (verdict E c rc)) as [[code err] |] eqn:Hf.
    + rewrite (Hrec code err eq_refl). cbn. lia.
    + destruct (verdict E c rc); try discriminate Hf. cbn. lia.
  - intros code err Hin.
    destruct (failure_of (verdict E c rc)) as [[code' err'] |] eqn:Hf.
    + destruct (events_of_failure c rc n _ code' err' Hf) as (pre & Heq & Hpre & Hno).
      rewrite Heq in Hin |- *.
      apply elem_of_app in Hin as [Hin | Hin]; [destruct (Hno _ _ Hin) |].
      unfold failure_events in Hin.
      repeat (apply elem_of_cons in Hin as [Hin | Hin]; try discriminate Hin).
      * injection Hin as -> ->. exists pre, [EvSpanEnd n]. repeat split. exact Hpre.
      * destruct (not_elem_of_nil _ Hin).
    + destruct (verdict E c rc); try discriminate Hf.
      unfold events_of, lookup_events, request_start in Hin.
      repeat (apply elem_of_cons in Hin as [Hin | Hin]; try discriminate Hin).
      destruct (not_elem_of_nil _ Hin).
  - destruct (failure_of (verdict E c rc)) as [[code err] |] eqn:Hf.
    + right. exists code, err.
      destruct (events_of_failure c rc n _ code err Hf) as (pre & Heq & _ & _).
      split; [| split; [| split]].
      * destruct (verdict E c rc); inversion Hf; subst; discriminate.
      * destruct (verdict E c rc); inversion Hf; subst; reflexivity.
      * exact (Hrec code err eq_refl).
      * rewrite Heq. apply elem_of_app. right. unfold failure_events.
        do 2 (apply list_elem_of_further). apply list_elem_of_here.
    + left. revert Hf. unfold verdict.
      destruct (decide (gin.Param c "id" = "")) as [Hid | Hid]; [discriminate |].
      destruct (redis_get E (store_addr rc) (gin.Param c "id")) as [order [e |]].
      * destruct (errors.chain_is e redis.Nil); discriminate.
      * destruct (decide (order = "")); [discriminate |]. intros _.
        repeat split. exact Hid.
Qed.

(** ** Shutdown *)

(** C10: when the ping passes, the server [newServer] returns has a nil [db]
    (the client that was pinged is not stored), so [stop] on that server
    calls [Close] on a nil client: it panics before anything is closed. *)
Theorem newServer_discards_client (E : Env) (serverAddr redisAddr : string) (n : nat) :
  redis_ping E redisAddr = None ->
  pings (effects (newServer E serverAddr redisAddr n)) = [redisAddr] /\
  exists s : server,
    value (newServer E serverAddr redisAddr n) = (Some s, None) /\
    db s = None /\
    httpServer s = Some {| http.Addr := serverAddr |} /\
    forall m : nat, stop E s m = (NilDereference, [], m).
Proof.
  intros Hping.
  unfold newServer, mbind, M_bind, bind, emit. cbn. rewrite Hping. cbn.
  split; [reflexivity |].
  exists {| httpServer := Some {| http.Addr := serverAddr |}; db := None |}.
  repeat split.
Qed.

Lemma newServer_discards_client_witness :
  pings (effects (newServer scenario_env ":9911" "localhost:6379" 0%nat))
    = ["localhost:6379"] /\
  exists s : server,
    value (newServer scenario_env ":9911" "localhost:6379" 0%nat) = (Some s, None) /\
    db s = None /\
    httpServer s = Some {| http.Addr := ":9911" |} /\
    forall m : nat, stop scenario_env s m = (NilDereference, [], m).
Proof.
  apply (newServer_discards_client scenario_env ":9911" "localhost:6379" 0%nat).
  reflexivity.
Defined.

(** [stop], on a server that holds both pointers, joins the error of closing
    the store with the error of closing the listener. *)
Lemma stop_joins_close_error (E : Env) (s : server) (d : redis.Client)
    (h : http.Server) (err : error) (n : nat) :
  db s = Some d -> httpServer s = Some h ->
  redis_close E (redis.Addr d) = Some err ->
  stop E s n =
    (Returned
       (Some (errors.joinError
                (errors.Errorf_w "close redis: " err :: errs_of (http_close E (http.Addr h))))),
     [EvRedisClose (redis.Addr d); EvHTTPClose (http.Addr h)], n).
Proof.
  intros Hdb Hhttp Hclose.
  unfold stop, httpServer_Close, mbind, M_bind, bind, emit.
  rewrite Hdb, Hhttp. cbn. rewrite Hclose. cbn.
  destruct (http_close E (http.Addr h)); reflexivity.
Qed.

(** What [Close] of the store client yields does not depend on the world:
    the error of [redisClient.Close()] goes nowhere. *)
Lemma Close_result_unbound (E1 E2 : Env) (c : db.Client) (n : nat) :
  db.Close E1 c n = db.Close E2 c n.
Proof. reflexivity. Qed.

(** Nor does what the end of [main] yields. *)
Lemma main_shutdown_result_unbound (E1 E2 : Env) (c : db.Client) (s : http.Server)
    (n : nat) :
  main_shutdown E1 c s n = main_shutdown E2 c s n.
Proof. reflexivity. Qed.

(** C6, on the code: in the world of the scenarios closing the store
    connection fails, yet [Close] of the store client and the end of [main]
    yield exactly what they yield when it succeeds, so the failure is
    surfaced nowhere; [stop], which would join it with the listener's, is
    reached by no server [newServer] builds, on which it panics. *)
Theorem shutdown_drops_store_close_error :
  redis_close scenario_env (store_addr scenario_client)
    = Some (errors.errorString "use of closed network connection") /\
  db.Close scenario_env scenario_client 0%nat
    = (tt, [EvRedisClose "localhost:6379"], 0%nat) /\
  db.Close scenario_env scenario_client 0%nat
    = db.Close scenario_env_clean_close scenario_client 0%nat /\
  main_shutdown scenario_env scenario_client {| http.Addr := ":9911" |} 0%nat
    = main_shutdown scenario_env_clean_close scenario_client
        {| http.Addr := ":9911" |} 0%nat /\
  (exists s : server,
     value (newServer scenario_env ":9911" "localhost:6379" 0%nat) = (Some s, None) /\
     value (stop scenario_env s 0%nat) = NilDereference) /\
  value (stop scenario_env
           {| httpServer := Some {| http.Addr := ":9911" |};
              db := Some {| redis.Addr := "localhost:6379" |} |} 0%nat)
    = Returned
        (Some (errors.joinError
                 [errors.wrapError "close redis: use of closed network connection"
                    (errors.errorString "use of closed network connection");
                  errors.errorString "close tcp: broken pipe"])).
Proof.
  split; [reflexivity |]. split; [reflexivity |]. split; [reflexivity |].
  split; [reflexivity |]. split; [| reflexivity].
  exists {| httpServer := Some {| http.Addr := ":9911" |}; db := None |}.
  split; reflexivity.
Qed.

(** ** The scenarios, run *)

(** [GET /v1/orders/42] with the store holding [widget-order]. *)
Example scenario_found :
  getOrder scenario_env (scenario_request "42") scenario_client 0%nat =
  (gin.render 200 {[ "order" := "widget-order" ]} (scenario_request "42"),
   [EvSpanStart "ordersAPI" 0%nat None "/order/:id" [];
    EvSetAttributes 0%nat [("order.id", "42")];
    EvSpanStart "redis" 1%nat (Some 0%nat) "get" [("id", "42")];
    EvRedisGet "localhost:6379" "42";
    EvSpanEnd 1%nat;
    EvJSON 200 {[ "order" := "widget-order" ]};
    EvSpanEnd 0%nat],
   2%nat).
Proof. vm_compute. reflexivity. Qed.

(** [GET /v1/orders/] with an empty id. *)
Example scenario_empty_id :
  getOrder scenario_env (scenario_request "") scenario_client 0%nat =
  (gin.abort 400 (errors.errorString "id is empty") (scenario_request ""),
   [EvSpanStart "ordersAPI" 0%nat None "/order/:id" [];
    EvRecordError 0%nat (errors.errorString "id is empty");
    EvSetStatus 0%nat codes_Error "id is empty";
    EvAbortWithError 400 (errors.errorString "id is empty");
    EvSpanEnd 0%nat],
   1%nat).
Proof. vm_compute. reflexivity. Qed.

(** A key that holds the empty value and a key that is absent get the same
    answer. *)
Example scenario_empty_value_as_absent :
  gin.status (value (getOrder scenario_env (scenario_request "7") scenario_client 0%nat))
    = Some 404 /\
  gin.status (value (getOrder scenario_env (scenario_request "999") scenario_client 0%nat))
    = Some 404.
Proof. split; vm_compute; reflexivity. Qed.

(** A not-found error that reaches the handler wrapped is still not-found. *)
Example wrapped_Nil_is_Nil :
  errors.Is (Some (errors.Errorf_w "get: " (errors.RedisError redis.Nil))) redis.Nil
    = true /\
  errors.Is (Some (errors.errorString "redis: nil")) redis.Nil = false.
Proof. split; vm_compute; reflexivity. Qed.

(** * Further properties *)

(** ** The decision table, read backwards *)

(** X1: the status the handler writes tells which row of the table was
    taken: 400 exactly for an empty id; 500 exactly for a store error that is
    not the not-found error; 404 exactly for the not-found error or an empty
    value without error; 200 exactly for a non-empty value without error. *)
Theorem getOrder_status_iff (E : Env) (c : gin.Context) (rc : db.Client) (n : nat) :
  let id := gin.Param c "id" in
  let order := (redis_get E (store_addr rc) id).1 in
  let err := (redis_get E (store_addr rc) id).2 in
  let status := gin.status (value (getOrder E c rc n)) in
  (status = Some http.StatusBadRequest <-> id = "") /\
  (status = Some http.StatusInternalServerError <->
     id <> "" /\ err <> None /\ errors.Is err redis.Nil = false) /\
  (status = Some http.StatusNotFound <->
     id <> "" /\ (errors.Is err redis.Nil = true \/ (err = None /\ order = ""))) /\
  (status = Some http.StatusOK <-> id <> "" /\ err = None /\ order <> "").
Proof.
  cbv zeta. rewrite getOrder_run.
  unfold verdict, http.StatusBadRequest, http.StatusInternalServerError,
    http.StatusNotFound, http.StatusOK.
  destruct (decide (gin.Param c "id" = "")) as [Hid | Hid].
  - cbn. repeat split; intros; try discriminate; tauto.
  - destruct (redis_get E (store_addr rc) (gin.Param c "id")) as [order [e |]];
      cbn [fst snd].
    + destruct (errors.chain_is e redis.Nil) eqn:His; cbn; rewrite ?His;
        intuition (try discriminate; try congruence).
    + destruct (decide (order = "")) as [Ho | Ho]; cbn;
        intuition (try discriminate; try congruence).
Qed.

(** X2: a request whose response is not written yet (as the router hands
    it over) gets exactly one write to its response; the status written is
    200, 400, 404 or 500 and is the status the context ends with; when it is
    not 200 no body is written, and when it is 200 the body is an object
    whose only key is [order]. *)
Theorem getOrder_writes_once (E : Env) (c : gin.Context) (rc : db.Client) (n : nat) :
  gin.status c = None ->
  gin.body c = None ->
  exists code : Z,
    writes (effects (getOrder E c rc n)) = [code] /\
    gin.status (value (getOrder E c rc n)) = Some code /\
    (code = 200 \/ code = 400 \/ code = 404 \/ code = 500) /\
    (code <> 200 -> gin.body (value (getOrder E c rc n)) = None) /\
    (code = 200 -> exists obj, gin.body (value (getOrder E c rc n)) = Some obj /\
                               dom obj = {[ "order" ]}).
Proof.
  intros Hstatus Hbody. rewrite getOrder_run.
  destruct (verdict E c rc) as [| e | | order].
  - exists 400. repeat split; try tauto; try exact Hbody. intros H; discriminate H.
  - exists 500. repeat split; try tauto; try exact Hbody. intros H; discriminate H.
  - exists 404. repeat split; try tauto; try exact Hbody. intros H; discriminate H.
  - exists 200. split; [reflexivity |]. split; [reflexivity |].
    split; [tauto |]. split; [intros H; destruct (H eq_refl) |].
    intros _. exists {[ "order" := json.coerce order ]}. split.
    + unfold value, respond, gin.render. cbn [fst gin.body].
      rewrite document_singleton. reflexivity.
    + apply dom_singleton_L.
Qed.

Lemma getOrder_writes_once_witness :
  exists code : Z,
    writes (effects (getOrder scenario_env (scenario_request "42") scenario_client 0%nat))
      = [code] /\
    gin.status (value (getOrder scenario_env (scenario_request "42") scenario_client 0%nat))
      = Some code /\
    (code = 200 \/ code = 400 \/ code = 404 \/ code = 500) /\
    (code <> 200 ->
     gin.body (value (getOrder scenario_env (scenario_request "42") scenario_client 0%nat))
       = None) /\
    (code = 200 ->
     exists obj,
       gin.body (value (getOrder scenario_env (scenario_request "42") scenario_client 0%nat))
         = Some obj /\
       dom obj = {[ "order" ]}).
Proof.
  apply (getOrder_writes_once scenario_env (scenario_request "42") scenario_client 0%nat);
    reflexivity.
Defined.

(** X3: the errors the handler pushes to [c.Errors] are the errors it records
    on the request span, after those the context already held; the request is
    marked aborted exactly when one was recorded; and the parameters and the
    request's context are left as they were. *)
Theorem getOrder_errors_match_span (E : Env) (c : gin.Context) (rc : db.Client)
    (n : nat) :
  gin.Errors (value (getOrder E c rc n))
    = gin.Errors c ++ recorded n (effects (getOrder E c rc n)) /\
  gin.aborted (value (getOrder E c rc n))
    = match recorded n (effects (getOrder E c rc n)) with
      | [] => gin.aborted c
      | _ :: _ => true
      end /\
  gin.Params (value (getOrder E c rc n)) = gin.Params c /\
  gin.Request_Context (value (getOrder E c rc n)) = gin.Request_Context c.
Proof.
  rewrite getOrder_run.
  destruct (verdict E c rc) as [| e | | order]; cbn -[singletonM];
    rewrite ?Nat.eqb_refl; repeat split.
  rewrite app_nil_r. reflexivity.
Qed.

(** X4: the only call the handler makes outside the process is the store's
    Get: none for an empty id, otherwise exactly one, to the address of the
    client it was given and for the id of the request. *)
Theorem getOrder_outside_calls (E : Env) (c : gin.Context) (rc : db.Client) (n : nat) :
  outside_calls (effects (getOrder E c rc n)) =
  if decide (gin.Param c "id" = "") then []
  else [EvRedisGet (store_addr rc) (gin.Param c "id")].
Proof.
  rewrite getOrder_run. unfold verdict.
  destruct (decide (gin.Param c "id" = "")) as [Hid | Hid]; [reflexivity |].
  destruct (redis_get E (store_addr rc) (gin.Param c "id")) as [order [e |]];
    [destruct (errors.chain_is e redis.Nil) | destruct (decide (order = ""))];
    reflexivity.
Qed.

(** ** Where errors are recorded *)

(** X5: [Get] hands back what the store answered, unchanged, after exactly
    one store call for the key it was given (also for an empty key), and
    records no error and sets no status on its span, whatever the store
    answered; in the handler, every error record and every status lands on
    the request span, never on the store span. *)
Theorem errors_only_on_request_span (E : Env) (c : gin.Context) (rc : db.Client)
    (ctx : context.Context) (id : string) (n : nat) :
  value (db.Get E rc ctx id n) = redis_get E (store_addr rc) id /\
  store_calls (effects (db.Get E rc ctx id n)) = [id] /\
  marked (effects (db.Get E rc ctx id n)) = [] /\
  (forall sp : SpanId, sp ∈ marked (effects (getOrder E c rc n)) -> sp = n) /\
  recorded (S n) (effects (getOrder E c rc n)) = [].
Proof.
  rewrite Get_run, getOrder_run.
  split; [reflexivity |]. split; [reflexivity |]. split; [reflexivity |].
  assert (marked (events_of c rc n (verdict E c rc)) = []
          \/ marked (events_of c rc n (verdict E c rc)) = [n; n]) as Hm.
  { destruct (verdict E c rc); cbn -[singletonM]; auto. }
  split.
  - intros sp Hin. unfold effects in Hin. cbn [fst snd] in Hin.
    destruct Hm as [Hm | Hm]; rewrite Hm in Hin.
    + destruct (not_elem_of_nil _ Hin).
    + repeat (apply elem_of_cons in Hin as [Hin | Hin]; [exact Hin |]).
      destruct (not_elem_of_nil _ Hin).
  - destruct (verdict E c rc); cbn -[singletonM]; rewrite ?eqb_succ_r; reflexivity.
Qed.

(** ** A request without the parameter *)

Lemma Param_missing (c : gin.Context) (key : string) :
  (forall kv : string * string, kv ∈ gin.Params c -> kv.1 <> key) ->
  gin.Param c key = "".
Proof.
  unfold gin.Param. induction (gin.Params c) as [| kv l IH]; intros Hno.
  - reflexivity.
  - cbn. rewrite bool_decide_false by (apply Hno, list_elem_of_here).
    apply IH. intros kv' Hin. apply Hno, list_elem_of_further, Hin.
Qed.

(** X6: a request that carries no parameter named [id] at all is answered
    like one with an empty id: 400, the error "id is empty" on the request
    span, and no call to the store. *)
Theorem getOrder_missing_param_400 (E : Env) (c : gin.Context) (rc : db.Client)
    (n : nat) :
  (forall kv : string * string, kv ∈ gin.Params c -> kv.1 <> "id") ->
  gin.status (value (getOrder E c rc n)) = Some http.StatusBadRequest /\
  recorded n (effects (getOrder E c rc n)) = [errors.New "id is empty"] /\
  outside_calls (effects (getOrder E c rc n)) = [].
Proof.
  intros Hno.
  rewrite getOrder_run, (verdict_bad_request E c rc (Param_missing c "id" Hno)).
  cbn. rewrite Nat.eqb_refl. repeat split.
Qed.

Lemma getOrder_missing_param_400_witness :
  gin.status
    (value (getOrder scenario_env (gin.request [("name", "42")] context.Background)
              scenario_client 0%nat))
    = Some http.StatusBadRequest /\
  recorded 0%nat
    (effects (getOrder scenario_env (gin.request [("name", "42")] context.Background)
                scenario_client 0%nat))
    = [errors.New "id is empty"] /\
  outside_calls
    (effects (getOrder scenario_env (gin.request [("name", "42")] context.Background)
                scenario_client 0%nat))
    = [].
Proof.
  apply (getOrder_missing_param_400 scenario_env
           (gin.request [("name", "42")] context.Background) scenario_client 0%nat).
  intros kv Hin. cbn in Hin.
  apply elem_of_cons in Hin as [-> | Hin]; [discriminate |].
  destruct (not_elem_of_nil _ Hin).
Defined.

(** ** [stop] on a server that holds its pointers *)

(** X7: on a server whose [db] and [httpServer] are both set, [stop] closes
    the store connection and then the listener, each once, also when closing
    the store fails; it returns, and what it returns is nil exactly when both
    closes succeeded; when the store closed cleanly it is the listener's
    error as it came. *)
Theorem stop_closes_both (E : Env) (s : server) (d : redis.Client) (h : http.Server)
    (n : nat) :
  db s = Some d -> httpServer s = Some h ->
  effects (stop E s n) = [EvRedisClose (redis.Addr d); EvHTTPClose (http.Addr h)] /\
  exists r : option error,
    value (stop E s n) = Returned r /\
    (r = None <->
       redis_close E (redis.Addr d) = None /\ http_close E (http.Addr h) = None) /\
    (redis_close E (redis.Addr d) = None -> r = http_close E (http.Addr h)).
Proof.
  intros Hdb Hhttp.
  unfold stop, httpServer_Close, mbind, M_bind, bind, emit.
  rewrite Hdb, Hhttp. cbn.
  destruct (redis_close E (redis.Addr d)) as [e1 |]; cbn.
  - split; [reflexivity |].
    destruct (http_close E (http.Addr h)) as [e2 |]; cbn;
      eexists; (split; [reflexivity |]); split;
      try (split; [intros H; discriminate H | intros [H _]; discriminate H]);
      intros H; discriminate H.
  - split; [reflexivity |].
    exists (http_close E (http.Addr h)). split; [reflexivity |].
    split; [| reflexivity]. split; [intros ->; split; reflexivity | intros [_ H]; exact H].
Qed.

Lemma stop_closes_both_witness :
  effects (stop scenario_env scenario_server 0%nat)
    = [EvRedisClose "localhost:6379"; EvHTTPClose ":9911"] /\
  exists r : option error,
    value (stop scenario_env scenario_server 0%nat) = Returned r /\
    (r = None <->
       redis_close scenario_env "localhost:6379" = None /\
       http_close scenario_env ":9911" = None) /\
    (redis_close scenario_env "localhost:6379" = None ->
     r = http_close scenario_env ":9911").
Proof.
  apply (stop_closes_both scenario_env scenario_server
           {| redis.Addr := "localhost:6379" |} {| http.Addr := ":9911" |} 0%nat);
    reflexivity.
Defined.

(** X8: on such a server, the error [stop] returns matches a target (in the
    sense of [errors.Is]) exactly when the store's close error or the
    listener's close error does; and when the store's close fails, its message
    is "close redis: " and the cause's message, followed on a new line by the
    listener's when that fails too. *)
Theorem stop_error_keeps_causes (E : Env) (s : server) (d : redis.Client)
    (h : http.Server) (n : nat) (target : string) :
  db s = Some d -> httpServer s = Some h ->
  exists r : option error,
    value (stop E s n) = Returned r /\
    errors.Is r target
      = errors.Is (redis_close E (redis.Addr d)) target
        || errors.Is (http_close E (http.Addr h)) target /\
    (forall err : error,
       redis_close E (redis.Addr d) = Some err ->
       exists e : error,
         r = Some e /\
         errors.Error e =
           match http_close E (http.Addr h) with
           | Some e2 =>
               ("close redis: " +:+ errors.Error err)
                 +:+ String "010"%char (errors.Error e2)
           | None => "close redis: " +:+ errors.Error err
           end).
Proof.
  intros Hdb Hhttp.
  unfold stop, httpServer_Close, mbind, M_bind, bind, emit.
  rewrite Hdb, Hhttp. cbn.
  destruct (redis_close E (redis.Addr d)) as [e1 |]; cbn.
  - destruct (http_close E (http.Addr h)) as [e2 |]; cbn;
      eexists; (split; [reflexivity |]); split.
    + cbn. rewrite orb_false_r. reflexivity.
    + intros err Herr. injection Herr as <-. eexists. split; reflexivity.
    + cbn. reflexivity.
    + intros err Herr. injection Herr as <-. eexists. split; reflexivity.
  - exists (http_close E (http.Addr h)). split; [reflexivity |].
    split; [reflexivity |]. intros err Herr. discriminate Herr.
Qed.

Lemma stop_error_keeps_causes_witness :
  exists r : option error,
    value (stop scenario_env scenario_server 0%nat) = Returned r /\
    errors.Is r redis.Nil
      = errors.Is (redis_close scenario_env "localhost:6379") redis.Nil
        || errors.Is (http_close scenario_env ":9911") redis.Nil /\
    (forall err : error,
       redis_close scenario_env "localhost:6379" = Some err ->
       exists e : error,
         r = Some e /\
         errors.Error e =
           match http_close scenario_env ":9911" with
           | Some e2 =>
               ("close redis: " +:+ errors.Error err)
                 +:+ String "010"%char (errors.Error e2)
           | None => "close redis: " +:+ errors.Error err
           end).
Proof.
  apply (stop_error_keeps_causes scenario_env scenario_server
           {| redis.Addr := "localhost:6379" |} {| http.Addr := ":9911" |} 0%nat
           redis.Nil);
    reflexivity.
Defined.

(** ** Failing pings *)

(** X9: [newServer] pings the store at the redis address once; it returns an
    error exactly when the ping fails, and then no server; that error's
    message is "ping redis: " and the cause's message, and it matches every
    target the cause matches. *)
Theorem newServer_pings (E : Env) (serverAddr redisAddr : string) (n : nat) :
  pings (effects (newServer E serverAddr redisAddr n)) = [redisAddr] /\
  outside_calls (effects (newServer E serverAddr redisAddr n))
    = [EvRedisPing redisAddr] /\
  ((value (newServer E serverAddr redisAddr n)).2 <> None
     <-> redis_ping E redisAddr <> None) /\
  ((value (newServer E serverAddr redisAddr n)).1 = None
     <-> redis_ping E redisAddr <> None) /\
  (forall cause : error,
     redis_ping E redisAddr = Some cause ->
     exists e : error,
       value (newServer E serverAddr redisAddr n) = (None, Some e) /\
       errors.Error e = "ping redis: " +:+ errors.Error cause /\
       forall target : string,
         errors.Is (Some e) target = errors.Is (Some cause) target).
Proof.
  unfold newServer, mbind, M_bind, bind, emit. cbn.
  destruct (redis_ping E redisAddr) as [err |]; cbn.
  - split; [reflexivity |]. split; [reflexivity |].
    split; [split; intros; congruence |]. split; [split; intros; congruence |].
    intros cause Hc. injection Hc as <-.
    exists (errors.Errorf_w "ping redis: " err).
    split; [reflexivity |]. split; [reflexivity |].
    intros target. reflexivity.
  - split; [reflexivity |]. split; [reflexivity |].
    split; [split; intros; congruence |]. split; [split; intros; congruence |].
    intros cause Hc. discriminate Hc.
Qed.

(** ** Startup *)

(** Without an error, [initTraceProvider] returns a provider. *)
Lemma initTraceProvider_ok (H : Host) :
  (initTraceProvider H).2 = None -> is_Some (initTraceProvider H).1.
Proof.
  unfold initTraceProvider. destruct (os_Hostname H) as [hostname herr].
  destruct (grpc_DialContext H "localhost:4317") as [e1 |]; [discriminate |].
  destruct (otlptracegrpc_New H "localhost:4317") as [e2 |]; [discriminate |].
  intros _. eexists. reflexivity.
Qed.

(** X10: [initTraceProvider] returns a provider or an error, never both and
    never neither: a provider exactly when the collector could be dialled and
    the exporter created, with the resource naming the service, the
    architecture and the host name as read; otherwise the first failure's
    error, as it came.  A failure to read the host name changes nothing. *)
Theorem initTraceProvider_result (H : Host) :
  match initTraceProvider H with
  | (Some tp, None) =>
      grpc_DialContext H "localhost:4317" = None /\
      otlptracegrpc_New H "localhost:4317" = None /\
      exporter_target tp = "localhost:4317" /\
      attributes (resource tp) =
        [("service.name", "ourservice"); ("host.arch", runtime_GOARCH H);
         ("host.name", (os_Hostname H).1)]
  | (None, Some err) =>
      grpc_DialContext H "localhost:4317" = Some err \/
      (grpc_DialContext H "localhost:4317" = None /\
       otlptracegrpc_New H "localhost:4317" = Some err)
  | _ => False
  end /\
  initTraceProvider H =
    initTraceProvider {| os_Hostname := ((os_Hostname H).1, None);
                         runtime_GOARCH := runtime_GOARCH H;
                         grpc_DialContext := grpc_DialContext H;
                         otlptracegrpc_New := otlptracegrpc_New H |}.
Proof.
  unfold initTraceProvider. destruct (os_Hostname H) as [hostname herr]. cbn.
  destruct (grpc_DialContext H "localhost:4317") as [e1 |].
  - split; [left; reflexivity | reflexivity].
  - destruct (otlptracegrpc_New H "localhost:4317") as [e2 |].
    + split; [right; split; reflexivity | reflexivity].
    + repeat split.
Qed.

(** X11: the start of [main] ends fatally exactly when the trace pipeline
    cannot be set up or the store does not answer the ping.  When the
    pipeline fails the store is never contacted; when the ping fails the
    fatal error is "ping: " and the cause; in neither case is anything shut
    down or closed.  Otherwise [main] goes on with a provider and a client
    of the store at localhost:6379 that traces as "redis". *)
Theorem main_startup_result (H : Host) (E : Env) (n : nat) :
  match value (main_startup H E n) with
  | Fatal err =>
      ((initTraceProvider H).2 = Some err /\ effects (main_startup H E n) = []) \/
      ((initTraceProvider H).2 = None /\
       effects (main_startup H E n) = [EvRedisPing "localhost:6379"] /\
       exists cause : error,
         redis_ping E "localhost:6379" = Some cause /\
         err = errors.Errorf_w "ping: " cause)
  | Serving traceProvider c =>
      initTraceProvider H = (traceProvider, None) /\
      is_Some traceProvider /\
      redis_ping E "localhost:6379" = None /\
      c = Some {| db.redisClient := {| redis.Addr := "localhost:6379" |};
                  db.tracer := "redis" |} /\
      effects (main_startup H E n) = [EvRedisPing "localhost:6379"]
  end.
Proof.
  pose proof (initTraceProvider_ok H) as Hinit.
  unfold main_startup.
  destruct (initTraceProvider H) as [tp [e |]]; cbn in Hinit |- *.
  - left. split; reflexivity.
  - unfold db.NewClient, mbind, M_bind, bind, emit. cbn.
    destruct (redis_ping E "localhost:6379") as [cause |]; cbn.
    + right. split; [reflexivity |]. split; [reflexivity |].
      exists cause. split; reflexivity.
    + repeat split. exact (Hinit eq_refl).
Qed.

(** ** The client [main] builds, in use *)

(** X12: with the client [NewClient] returns for an address, the handler
    asks the store at that very address, once, for the id of the request,
    under a span of the tracer "redis" whose parent is the request span; and
    its answer is decided by what the store at that address holds. *)
Theorem NewClient_then_getOrder (E : Env) (ctx : context.Context) (addr : string)
    (c : gin.Context) (n0 n : nat) :
  redis_ping E addr = None ->
  gin.Param c "id" <> "" ->
  exists rc : db.Client,
    value (db.NewClient E ctx addr n0) = (Some rc, None) /\
    outside_calls (effects (getOrder E c rc n)) = [EvRedisGet addr (gin.Param c "id")] /\
    EvSpanStart "redis" (S n) (Some n) "get" [("id", gin.Param c "id")]
      ∈ effects (getOrder E c rc n) /\
    (gin.status (value (getOrder E c rc n)) = Some http.StatusOK <->
       (redis_get E addr (gin.Param c "id")).2 = None /\
       (redis_get E addr (gin.Param c "id")).1 <> "").
Proof.
  intros Hping Hid.
  exists {| db.redisClient := {| redis.Addr := addr |}; db.tracer := "redis" |}.
  split.
  { unfold db.NewClient, mbind, M_bind, bind, emit. cbn. rewrite Hping. reflexivity. }
  rewrite getOrder_run. unfold verdict, store_addr, http.StatusOK. cbn [db.redisClient redis.Addr].
  rewrite decide_False by exact Hid.
  destruct (redis_get E addr (gin.Param c "id")) as [order [e |]]; cbn [fst snd].
  - destruct (errors.chain_is e redis.Nil); cbn -[singletonM];
      (split; [reflexivity |]); (split; [do 2 apply list_elem_of_further; apply list_elem_of_here |]);
      split; [discriminate | intros [H _]; discriminate H
             | discriminate | intros [H _]; discriminate H].
  - destruct (decide (order = "")) as [Ho | Ho]; cbn -[singletonM];
      (split; [reflexivity |]); (split; [do 2 apply list_elem_of_further; apply list_elem_of_here |]);
      split.
    + discriminate.
    + intros [_ H]. destruct (H Ho).
    + intros _. split; [reflexivity | exact Ho].
    + reflexivity.
Qed.

Lemma NewClient_then_getOrder_witness :
  exists rc : db.Client,
    value (db.NewClient scenario_env context.Background "localhost:6379" 0%nat)
      = (Some rc, None) /\
    outside_calls (effects (getOrder scenario_env (scenario_request "42") rc 0%nat))
      = [EvRedisGet "localhost:6379" (gin.Param (scenario_request "42") "id")] /\
    EvSpanStart "redis" 1%nat (Some 0%nat) "get"
        [("id", gin.Param (scenario_request "42") "id")]
      ∈ effects (getOrder scenario_env (scenario_request "42") rc 0%nat) /\
    (gin.status (value (getOrder scenario_env (scenario_request "42") rc 0%nat))
       = Some http.StatusOK <->
       (redis_get scenario_env "localhost:6379"
          (gin.Param (scenario_request "42") "id")).2 = None /\
       (redis_get scenario_env "localhost:6379"
          (gin.Param (scenario_request "42") "id")).1 <> "").
Proof.
  apply (NewClient_then_getOrder scenario_env context.Background "localhost:6379"
           (scenario_request "42") 0%nat 0%nat).
  - reflexivity.
  - vm_compute. discriminate.
Defined.

(** X13: the handler tells not-found from failure by the kind of the error,
    not by its text: an error of another kind is a failure (500) whatever
    its message, also "redis: nil"; a redis error is not-found (404)
    exactly when it is [redis.Nil], bare or wrapped with [%w]; and the value
    that came with the error plays no part. *)
Theorem getOrder_classifies_by_kind (E : Env) (c : gin.Context) (rc : db.Client)
    (n : nat) (order : string) (e : error) :
  gin.Param c "id" <> "" ->
  redis_get E (store_addr rc) (gin.Param c "id") = (order, Some e) ->
  (forall s : string,
     e = errors.errorString s ->
     gin.status (value (getOrder E c rc n)) = Some http.StatusInternalServerError) /\
  (forall s : string,
     e = errors.RedisError s ->
     (s = redis.Nil /\
      gin.status (value (getOrder E c rc n)) = Some http.StatusNotFound) \/
     (s <> redis.Nil /\
      gin.status (value (getOrder E c rc n)) = Some http.StatusInternalServerError)) /\
  (forall (prefix s : string),
     e = errors.Errorf_w prefix (errors.RedisError s) ->
     (s = redis.Nil /\
      gin.status (value (getOrder E c rc n)) = Some http.StatusNotFound) \/
     (s <> redis.Nil /\
      gin.status (value (getOrder E c rc n)) = Some http.StatusInternalServerError)).
Proof.
  intros Hid Hget. rewrite getOrder_run. unfold verdict.
  rewrite decide_False by exact Hid. rewrite Hget.
  split; [| split].
  - intros s ->. reflexivity.
  - intros s ->. cbn [errors.chain_is].
    destruct (decide (s = redis.Nil)) as [Hs | Hs].
    + left. rewrite bool_decide_true by exact Hs. split; [exact Hs | reflexivity].
    + right. rewrite bool_decide_false by exact Hs. split; [exact Hs | reflexivity].
  - intros prefix s ->. unfold errors.Errorf_w. cbn [errors.chain_is].
    destruct (decide (s = redis.Nil)) as [Hs | Hs].
    + left. rewrite bool_decide_true by exact Hs. split; [exact Hs | reflexivity].
    + right. rewrite bool_decide_false by exact Hs. split; [exact Hs | reflexivity].
Qed.

Lemma getOrder_classifies_by_kind_witness :
  (forall s : string,
     errors.errorString "i/o timeout" = errors.errorString s ->
     gin.status (value (getOrder scenario_env (scenario_request "boom") scenario_client 0%nat))
       = Some http.StatusInternalServerError) /\
  (forall s : string,
     errors.errorString "i/o timeout" = errors.RedisError s ->
     (s = redis.Nil /\
      gin.status (value (getOrder scenario_env (scenario_request "boom") scenario_client 0%nat))
        = Some http.StatusNotFound) \/
     (s <> redis.Nil /\
      gin.status (value (getOrder scenario_env (scenario_request "boom") scenario_client 0%nat))
        = Some http.StatusInternalServerError)) /\
  (forall (prefix s : string),
     errors.errorString "i/o timeout" = errors.Errorf_w prefix (errors.RedisError s) ->
     (s = redis.Nil /\
      gin.status (value (getOrder scenario_env (scenario_request "boom") scenario_client 0%nat))
        = Some http.StatusNotFound) \/
     (s <> redis.Nil /\
      gin.status (value (getOrder scenario_env (scenario_request "boom") scenario_client 0%nat))
        = Some http.StatusInternalServerError)).
Proof.
  apply (getOrder_classifies_by_kind scenario_env (scenario_request "boom")
           scenario_client 0%nat "" (errors.errorString "i/o timeout")).
  - vm_compute. discriminate.
  - vm_compute. reflexivity.
Defined.

(** ** From startup to shutdown *)


